(** * InterfaceController: per-interface kernel configuration (netd)

    A shallow embedding of [server/InterfaceController.cpp] and the
    properties of its path-safety predicates, of the interface enumeration
    [forEachInterface], of the ordered write of the route-information-option
    prefix lengths, and of the public setters built on them.

    Conventions.
    - A C string ([const char *]) is the [string] of the bytes before its
      terminating NUL; [std::string] values are [string] as well.
    - [int] and [unsigned int] values are [Z]; the two places where the code
      does arithmetic on them ([Int32.neg], [UInt32.mul]) write the
      wrap-around out.
    - Everything outside the translation unit that has an effect (file reads
      and writes, directory listing, [access], the vendor helper, the
      address ioctls, the log) is a method of the class [Platform]; every such
      call is recorded in a trace, so that "no I/O" and "exactly one write"
      are statements about that trace. *)

From Stdlib Require Import ZArith Ascii String List Bool.
From stdpp Require Import base strings pretty gmap list.

Local Open Scope string_scope.
Local Open Scope Z_scope.
Local Open Scope list_scope.

(** ** The C library functions the predicates use *)

Module CString.

(** [strcmp]: the sign of the first difference, bytes compared as
    [unsigned char]; a proper prefix compares less. *)
Fixpoint strcmp (a b : string) : Z :=
  match a, b with
  | EmptyString, EmptyString => 0
  | EmptyString, String _ _ => -1
  | String _ _, EmptyString => 1
  | String c a', String d b' =>
      if Ascii.eqb c d then strcmp a' b'
      else if (N_of_ascii c <? N_of_ascii d)%N then -1 else 1
  end.

(** [strchr]: the suffix starting at the first occurrence of [c], or the
    null pointer ([None]). *)
Fixpoint strchr (s : string) (c : ascii) : option string :=
  match s with
  | EmptyString => None
  | String d s' => if Ascii.eqb d c then Some s else strchr s' c
  end.

(** The bytes of a C string. *)
Fixpoint bytes (s : string) : list ascii :=
  match s with
  | EmptyString => []
  | String c s' => c :: bytes s'
  end.

End CString.
Import CString.

(** ** Path safety (lines 57-71) *)

Definition isnull {A} (p : option A) : bool :=
  match p with None => true | Some _ => false end.

Definition isNormalPathComponent (component : string) : bool :=
  negb (strcmp component "." =? 0) &&
  negb (strcmp component ".." =? 0) &&
  isnull (strchr component "/").

Definition isAddressFamilyPathComponent (component : string) : bool :=
  (strcmp component "ipv4" =? 0) || (strcmp component "ipv6" =? 0).

Definition isInterfaceName (name : string) : bool :=
  isNormalPathComponent name &&
  negb (strcmp name "default" =? 0) &&
  negb (strcmp name "all" =? 0).

(** ** Machine integers and the constants of the system headers *)

Module Int32.
(** Two's-complement wrap-around of a 32-bit [int] (negating [INT_MIN],
    undefined in C, wraps here). *)
Definition wrap (z : Z) : Z := (z + 2 ^ 31) mod 2 ^ 32 - 2 ^ 31.
Definition neg (z : Z) : Z := wrap (- z).
End Int32.

Module UInt32.
Definition wrap (z : Z) : Z := z mod 2 ^ 32.
Definition mul (a b : Z) : Z := wrap (a * b).
End UInt32.

(** [errno.h], [dirent.h] and [unistd.h] on Linux. *)
Definition ENOENT : Z := 2.
Definition EINVAL : Z := 22.
Definition EAFNOSUPPORT : Z := 97.
Definition DT_DIR : Z := 4.
Definition X_OK : Z := 1.

(** ** The outside world *)

Record dirent := Dirent { d_type : Z; d_name : string }.

Inductive log_arg :=
| LogStr (s : string)
| LogInt (z : Z)
| LogStrerror (errnum : Z).

(** One entry per call that leaves the translation unit. *)
Inductive event :=
| EvWriteStringToFile (content path : string) (ok : bool)
| EvReadFileToString (path : string) (ok : bool)
| EvOpendir (dirname : string) (ok : bool)
| EvClosedir (dirname : string)
| EvAccess (path : string) (mode : Z) (ret : Z)
| EvForkExecvp (argv : list string) (ret : Z)
| EvIfcAddAddress (iface addr : string) (prefixlen : Z) (ret : Z)
| EvIfcDelAddress (iface addr : string) (prefixlen : Z) (ret : Z)
| EvLog (priority fmt : string) (args : list log_arg).

(** What a call into the platform yields: its result, the value it leaves in
    [errno] (if it sets it), and the world after it. *)
Record outcome (R W : Type) := Outcome {
  result : R;
  new_errno : option Z;
  new_world : W
}.
Arguments Outcome {R W}.
Arguments result {R W}.
Arguments new_errno {R W}.
Arguments new_world {R W}.

(** The capabilities the controller consumes. [plat_opendir] yields the
    directory stream as the finite list of entries [readdir] will return;
    [plat_ReadFileToString] yields the success flag and what it leaves in the
    caller's buffer. *)
Class Platform (W : Type) := {
  plat_WriteStringToFile : string -> string -> W -> outcome bool W;
  plat_ReadFileToString : string -> W -> outcome (bool * string) W;
  plat_opendir : string -> W -> outcome (option (list dirent)) W;
  plat_access : string -> Z -> W -> outcome Z W;
  plat_android_fork_execvp : list string -> W -> outcome Z W;
  plat_ifc_add_address : string -> string -> Z -> W -> outcome Z W;
  plat_ifc_del_address : string -> string -> Z -> W -> outcome Z W
}.

(** Declarations the controller takes from the headers of its siblings:
    [isIfaceName] (NetdConstants.h) and
    [RouteController::ROUTE_TABLE_OFFSET_FROM_INDEX] (RouteController.h).
    Their definitions are not part of this translation unit, so the
    development is parametric in them. *)
Class Netd := {
  isIfaceName : string -> bool;
  ROUTE_TABLE_OFFSET_FROM_INDEX : Z
}.

Record state (W : Type) := State {
  world : W;
  errno : Z;
  trace : list event
}.
Arguments State {W}.
Arguments world {W}.
Arguments errno {W}.
Arguments trace {W}.

(** ** The state monad the code runs in *)

Definition M (W A : Type) : Type := state W -> A * state W.

Definition pure {W A} (a : A) : M W A := fun s => (a, s).

Definition bind {W A B} (m : M W A) (k : A -> M W B) : M W B :=
  fun s => let (a, s') := m s in k a s'.

Notation "'let*' x ':=' m 'in' k" := (bind m (fun x => k))
  (at level 10, x name, m at level 100, k at level 200).
Notation "m '>>' k" := (bind m (fun _ => k))
  (at level 90, right associativity).

Definition set_errno {W} (e : Z) : M W unit :=
  fun s => (tt, State (world s) e (trace s)).

Definition get_errno {W} : M W Z := fun s => (errno s, s).

(** A call into the platform: run it on the world, take over the [errno] it
    set, and record the call with its result. *)
Definition call {W R} (op : W -> outcome R W) (ev : R -> event) : M W R :=
  fun s =>
    let o := op (world s) in
    (result o,
     State (new_world o) (default (errno s) (new_errno o)) (trace s ++ [ev (result o)])).

Definition log {W} (priority fmt : string) (args : list log_arg) : M W unit :=
  fun s => (tt, State (world s) (errno s) (trace s ++ [EvLog priority fmt args])).

(** ** The controller (lines 41-306) *)

Definition ipv6_proc_path : string := "/proc/sys/net/ipv6/conf".
Definition ipv4_neigh_conf_dir : string := "/proc/sys/net/ipv4/neigh".
Definition ipv6_neigh_conf_dir : string := "/proc/sys/net/ipv6/neigh".
Definition proc_net_path : string := "/proc/sys/net".
Definition sys_net_path : string := "/sys/class/net".
Definition wl_util_path : string := "/vendor/xbin/wlutil".
Definition kRouteInfoMinPrefixLen : Z := 48.
Definition kRouteInfoMaxPrefixLen : Z := 64.

(** [StringPrintf("%s/%s/%s", a, b, c)] and its five-component sibling. *)
Definition path3 (a b c : string) : string := a +:+ "/" +:+ b +:+ "/" +:+ c.
Definition path5 (a b c d e : string) : string :=
  a +:+ "/" +:+ b +:+ "/" +:+ c +:+ "/" +:+ d +:+ "/" +:+ e.

(** [std::to_string(int)], [StringPrintf("%d", int)] and
    [StringPrintf("%u", unsigned)]: the decimal numeral. *)
Definition to_string (n : Z) : string := pretty n.

(** The truth value of an [int] used as a condition. *)
Definition truthy (on : Z) : bool := negb (on =? 0).

Section Controller.
Context {W : Type} `{!Platform W} `{!Netd}.

Definition WriteStringToFile (content path : string) : M W bool :=
  call (plat_WriteStringToFile content path) (EvWriteStringToFile content path).

Definition ReadFileToString (path : string) : M W (bool * string) :=
  call (plat_ReadFileToString path) (fun r => EvReadFileToString path (fst r)).

Definition opendir (dirname : string) : M W (option (list dirent)) :=
  call (plat_opendir dirname) (fun r => EvOpendir dirname (negb (isnull r))).

Definition closedir (dirname : string) : M W unit :=
  fun s => (tt, State (world s) (errno s) (trace s ++ [EvClosedir dirname])).

Definition writeValueToPath (dirname subdirname basename value : string) : M W Z :=
  let path := path3 dirname subdirname basename in
  let* ok := WriteStringToFile value path in
  pure (if ok then 0 else -1).

(** The [while (true)] loop of [forEachInterface] over the entries the
    stream still holds: [readdir] hands out the next one, [NULL] at the end. *)
Fixpoint readdir_loop (dirname : string) (fn : string -> string -> M W unit)
    (dir : list dirent) : M W unit :=
  match dir with
  | [] => pure tt
  | ent :: rest =>
      if negb (d_type ent =? DT_DIR) || negb (isInterfaceName (d_name ent))
      then readdir_loop dirname fn rest
      else fn dirname (d_name ent) >> readdir_loop dirname fn rest
  end.

Definition forEachInterface (dirname : string) (fn : string -> string -> M W unit)
    : M W unit :=
  fn dirname "default" >>
  let* dir := opendir dirname in
  match dir with
  | None =>
      let* e := get_errno in
      log "E" "Can't list %s: %s" [LogStr dirname; LogStrerror e]
  | Some entries =>
      readdir_loop dirname fn entries >>
      closedir dirname
  end.

Definition setOnAllInterfaces (dirname basename value : string) : M W unit :=
  let fn : string -> string -> M W unit := fun path iface =>
    writeValueToPath path iface basename value >> pure tt in
  forEachInterface dirname fn.

Definition setIPv6UseOutgoingInterfaceAddrsOnly (value : string) : M W unit :=
  setOnAllInterfaces ipv6_proc_path "use_oif_addrs_only" value.

Definition getParameterPathname (family which interface parameter : string)
    : M W string :=
  if negb (isAddressFamilyPathComponent family) then
    set_errno EAFNOSUPPORT >> pure ""
  else if negb (isNormalPathComponent which) ||
          negb (isInterfaceName interface) ||
          negb (isNormalPathComponent parameter) then
    set_errno EINVAL >> pure ""
  else
    pure (path5 proc_net_path family which interface parameter).

(** The action [setAcceptIPv6RIO] runs on every interface. *)
Definition rio_fn (min max : Z) (prefix iface : string) : M W unit :=
  let* rv := writeValueToPath prefix iface "accept_ra_rt_info_min_plen" (to_string min) in
  if negb (rv =? 0) then pure tt
  else
    writeValueToPath prefix iface "accept_ra_rt_info_max_plen" (to_string max) >>
    pure tt.

Definition setAcceptIPv6RIO (min max : Z) : M W unit :=
  forEachInterface ipv6_proc_path (rio_fn min max).

Definition setAcceptRA (value : string) : M W unit :=
  setOnAllInterfaces ipv6_proc_path "accept_ra" value.

Definition setAcceptRARouteTable (tableOrOffset : Z) : M W unit :=
  let value := to_string tableOrOffset in
  setOnAllInterfaces ipv6_proc_path "accept_ra_rt_table" value.

Definition setBaseReachableTimeMs (millis : Z) : M W unit :=
  let value := to_string millis in
  setOnAllInterfaces ipv4_neigh_conf_dir "base_reachable_time_ms" value >>
  setOnAllInterfaces ipv6_neigh_conf_dir "base_reachable_time_ms" value.

Definition setIPv6OptimisticMode (value : string) : M W unit :=
  setOnAllInterfaces ipv6_proc_path "optimistic_dad" value >>
  setOnAllInterfaces ipv6_proc_path "use_optimistic" value.

Definition initializeAll : M W unit :=
  setAcceptRA "2" >>
  setAcceptIPv6RIO kRouteInfoMinPrefixLen kRouteInfoMaxPrefixLen >>
  setAcceptRARouteTable (Int32.neg ROUTE_TABLE_OFFSET_FROM_INDEX) >>
  setIPv6OptimisticMode "1" >>
  setBaseReachableTimeMs (UInt32.mul 15 1000) >>
  setIPv6UseOutgoingInterfaceAddrsOnly "1".

Definition setEnableIPv6 (interface : string) (on : Z) : M W Z :=
  if negb (isIfaceName interface) then
    set_errno ENOENT >> pure (-1)
  else
    let disable_ipv6 := if truthy on then "0" else "1" in
    writeValueToPath ipv6_proc_path interface "disable_ipv6" disable_ipv6.

Definition setAcceptIPv6Ra (interface : string) (on : Z) : M W Z :=
  if negb (isIfaceName interface) then
    set_errno ENOENT >> pure (-1)
  else
    let accept_ra := if truthy on then "2" else "0" in
    writeValueToPath ipv6_proc_path interface "accept_ra" accept_ra.

Definition setAcceptIPv6Dad (interface : string) (on : Z) : M W Z :=
  if negb (isIfaceName interface) then
    set_errno ENOENT >> pure (-1)
  else
    let accept_dad := if truthy on then "1" else "0" in
    writeValueToPath ipv6_proc_path interface "accept_dad" accept_dad.

Definition setIPv6DadTransmits (interface value : string) : M W Z :=
  if negb (isIfaceName interface) then
    set_errno ENOENT >> pure (-1)
  else
    writeValueToPath ipv6_proc_path interface "dad_transmits" value.

Definition setIPv6PrivacyExtensions (interface : string) (on : Z) : M W Z :=
  if negb (isIfaceName interface) then
    set_errno ENOENT >> pure (-1)
  else
    writeValueToPath ipv6_proc_path interface "use_tempaddr"
      (if truthy on then "2" else "0").

Definition setIPv6NdOffload (interface : string) (on : Z) : M W Z :=
  let* rc := call (plat_access wl_util_path X_OK) (EvAccess wl_util_path X_OK) in
  if rc =? 0 then
    let argv := [wl_util_path; "-a"; interface; "ndoe";
                 if truthy on then "1" else "0"] in
    let* ret := call (plat_android_fork_execvp argv) (EvForkExecvp argv) in
    let* e := get_errno in
    log "D" "%s ND offload on %s: %d (%s)"
      [LogStr (if truthy on then "enabling" else "disabling");
       LogStr interface; LogInt ret; LogStrerror e] >>
    pure ret
  else
    pure 0.

Definition setMtu (interface mtu : string) : M W Z :=
  if negb (isIfaceName interface) then
    set_errno ENOENT >> pure (-1)
  else
    writeValueToPath sys_net_path interface "mtu" mtu.



(** [getParameter] returns its [int] together with the contents of [*value]
    after the call. *)
Definition getParameter (family which interface parameter value : string)
    : M W (Z * string) :=
  let* path := getParameterPathname family which interface parameter in
  if bool_decide (path = "") then
    let* e := get_errno in pure (- e, value)
  else
    let* r := ReadFileToString path in
    if fst r then pure (0, snd r)
    else let* e := get_errno in pure (- e, snd r).

Definition setParameter (family which interface parameter value : string)
    : M W Z :=
  let* path := getParameterPathname family which interface parameter in
  if bool_decide (path = "") then
    let* e := get_errno in pure (- e)
  else
    let* ok := WriteStringToFile value path in
    if ok then pure 0 else let* e := get_errno in pure (- e).

End Controller.

(** ** Reading a trace *)

Definition is_write (e : event) : bool :=
  match e with EvWriteStringToFile _ _ _ => true | _ => false end.

(** The file writes of a trace, in order. *)
Definition writes (t : list event) : list event := List.filter is_write t.

(** The (path, content) pairs of the file writes of a trace, in order. *)
Definition written (t : list event) : list (string * string) :=
  flat_map (fun e => match e with
                     | EvWriteStringToFile content path _ => [(path, content)]
                     | _ => []
                     end) t.

(** [emits m s new]: run from [s], [m] appends exactly [new] to the trace. *)
Definition emits {W A} (m : M W A) (s : state W) (new : list event) : Prop :=
  trace (snd (m s)) = trace s ++ new.

(** [performs m s ws]: run from [s], [m] appends to the trace events whose
    file writes are exactly [ws]. *)
Definition performs {W A} (m : M W A) (s : state W) (ws : list (string * string)) : Prop :=
  exists new, emits m s new /\ written new = ws.

(** ** The contract of the enumeration, in the words of the specification *)

(** The entries that are directories and carry an interface name, in listing
    order. *)
Definition real_interfaces (entries : list dirent) : list string :=
  map d_name
      (List.filter (fun e => (d_type e =? DT_DIR) && isInterfaceName (d_name e)) entries).

(** Invoke the action once per name, in order. *)
Fixpoint invoke_each {W} (dirname : string) (fn : string -> string -> M W unit)
    (names : list string) : M W unit :=
  match names with
  | [] => pure tt
  | name :: rest => fn dirname name >> invoke_each dirname fn rest
  end.

(** The real interfaces a listing of [dirname] taken in world [w] shows; none
    when the directory cannot be listed. *)
Definition listing {W} `{!Platform W} (dirname : string) (w : W) : list string :=
  match result (plat_opendir dirname w) with
  | None => []
  | Some entries => real_interfaces entries
  end.

(** An action that only records that it ran. *)
Definition visit {W} (path iface : string) : M W unit :=
  log "I" "visit %s/%s" [LogStr path; LogStr iface].


(** ** The single-target setters as one family *)

Inductive setter :=
| SetEnableIPv6 (on : Z)
| SetAcceptIPv6Ra (on : Z)
| SetAcceptIPv6Dad (on : Z)
| SetIPv6DadTransmits (value : string)
| SetIPv6PrivacyExtensions (on : Z)
| SetMtu (mtu : string).

Definition run_setter {W} `{!Platform W} `{!Netd} (op : setter) (interface : string)
    : M W Z :=
  match op with
  | SetEnableIPv6 on => setEnableIPv6 interface on
  | SetAcceptIPv6Ra on => setAcceptIPv6Ra interface on
  | SetAcceptIPv6Dad on => setAcceptIPv6Dad interface on
  | SetIPv6DadTransmits value => setIPv6DadTransmits interface value
  | SetIPv6PrivacyExtensions on => setIPv6PrivacyExtensions interface on
  | SetMtu mtu => setMtu interface mtu
  end.

(** ** The ordered pair of writes, as a shape of traces *)

Definition min_plen_path (iface : string) : string :=
  path3 ipv6_proc_path iface "accept_ra_rt_info_min_plen".
Definition max_plen_path (iface : string) : string :=
  path3 ipv6_proc_path iface "accept_ra_rt_info_max_plen".

(** [rio_pass min max ifaces t]: [t] is the write trace of one pass over
    [ifaces] in which every interface has its minimum written, and its
    maximum written next exactly when the minimum write succeeded. *)
Inductive rio_pass (min max : Z) : list string -> list event -> Prop :=
| rio_done : rio_pass min max [] []
| rio_min_failed iface ifaces t :
    rio_pass min max ifaces t ->
    rio_pass min max (iface :: ifaces)
      (EvWriteStringToFile (to_string min) (min_plen_path iface) false :: t)
| rio_both iface ok ifaces t :
    rio_pass min max ifaces t ->
    rio_pass min max (iface :: ifaces)
      (EvWriteStringToFile (to_string min) (min_plen_path iface) true ::
       EvWriteStringToFile (to_string max) (max_plen_path iface) ok :: t).

(** The ordered pair for one interface, in the words of the specification:
    write the minimum; only if that write reports success, write the
    maximum next. Each write is the platform's, on the world the previous
    one left. *)
Definition rio_interface {W} `{!Platform W} (min max : Z) (iface : string) (s : state W)
    : state W :=
  let o1 := plat_WriteStringToFile (to_string min) (min_plen_path iface) (world s) in
  let s1 := State (new_world o1) (default (errno s) (new_errno o1))
              (trace s ++ [EvWriteStringToFile (to_string min) (min_plen_path iface)
                             (result o1)]) in
  if result o1 then
    let o2 := plat_WriteStringToFile (to_string max) (max_plen_path iface) (new_world o1) in
    State (new_world o2) (default (errno s1) (new_errno o2))
      (trace s1 ++ [EvWriteStringToFile (to_string max) (max_plen_path iface) (result o2)])
  else s1.

(** ** A fake filesystem to run the controller on *)

Module Fake.

(** The world is the set of writable nodes with their contents. A write
    succeeds exactly on an existing node (the kernel's tree has no file
    creation); the directory listings [dirs] and the presence of the vendor
    helper are fixed per host. *)
Definition write (content path : string) (w : gmap string string)
    : outcome bool (gmap string string) :=
  match w !! path with
  | Some _ => Outcome true None (<[path := content]> w)
  | None => Outcome false (Some ENOENT) w
  end.

Definition read (path : string) (w : gmap string string)
    : outcome (bool * string) (gmap string string) :=
  match w !! path with
  | Some content => Outcome (true, content) None w
  | None => Outcome (false, "") (Some ENOENT) w
  end.

Definition platform (dirs : string -> option (list dirent)) (helper : bool)
    : Platform (gmap string string) := {|
  plat_WriteStringToFile := write;
  plat_ReadFileToString := read;
  plat_opendir := fun dirname w =>
    match dirs dirname with
    | Some entries => Outcome (Some entries) None w
    | None => Outcome None (Some ENOENT) w
    end;
  plat_access := fun path mode w =>
    if helper && bool_decide (path = wl_util_path)
    then Outcome 0 None w else Outcome (-1) (Some ENOENT) w;
  plat_android_fork_execvp := fun argv w => Outcome 0 None w;
  plat_ifc_add_address := fun iface addr prefixlen w => Outcome 0 None w;
  plat_ifc_del_address := fun iface addr prefixlen w => Outcome 0 None w
|}.

(** Modelled from the spec: [isIfaceName], which section 4.7 describes as the
    interface-name check of section 4.1, and the route table offset, which
    the spec only calls a negative offset (1000 here). *)
Definition netd : Netd := {|
  isIfaceName := isInterfaceName;
  ROUTE_TABLE_OFFSET_FROM_INDEX := 1000
|}.


(** A host with two interfaces, a plain file and the reserved entry. *)
Definition two_interfaces (dirname : string) : option (list dirent) :=
  Some [Dirent DT_DIR "."; Dirent DT_DIR ".."; Dirent DT_DIR "wlan0";
        Dirent 8 "README"; Dirent DT_DIR "all"; Dirent DT_DIR "default";
        Dirent DT_DIR "eth0"].

Definition unlistable (dirname : string) : option (list dirent) := None.

Definition boot : state (gmap string string) := State ∅ 0 [].

(** The nodes [dirname/iface/leaf] of the given interfaces, all empty. *)
Definition nodes (dirname : string) (ifaces leaves : list string) : gmap string string :=
  list_to_map
    (flat_map (fun iface => map (fun leaf => (path3 dirname iface leaf, "")) leaves)
              ifaces).

Definition rio_leaves : list string :=
  ["accept_ra_rt_info_min_plen"; "accept_ra_rt_info_max_plen"].

Definition conf_leaves : list string :=
  ["accept_ra"; "accept_ra_rt_table"; "optimistic_dad"; "use_optimistic";
   "use_oif_addrs_only"; "disable_ipv6"; "accept_dad"; "dad_transmits";
   "use_tempaddr"].

(** A kernel without the two route-information-option nodes. *)
Definition kernel_without_rio (ifaces : list string) : gmap string string :=
  nodes ipv6_proc_path ifaces conf_leaves ∪
  nodes ipv4_neigh_conf_dir ifaces ["base_reachable_time_ms"] ∪
  nodes ipv6_neigh_conf_dir ifaces ["base_reachable_time_ms"] ∪
  nodes sys_net_path ifaces ["mtu"].

(** A kernel with every node the controller writes. *)
Definition kernel (ifaces : list string) : gmap string string :=
  nodes ipv6_proc_path ifaces rio_leaves ∪ kernel_without_rio ifaces.

Definition booted (w : gmap string string) : state (gmap string string) := State w 0 [].

End Fake.

(** ** Reading a path *)

(** The components of a path: the substrings between its separators. *)
Fixpoint components (path : string) : list string :=
  match path with
  | EmptyString => [""]
  | String c rest =>
      if Ascii.eqb c "/" then "" :: components rest
      else match components rest with
           | [] => [String c ""]
           | first :: others => String c first :: others
           end
  end.

(** [per_interface_node dirs leaves path]: [path] is the node of one of
    [leaves] for "default" or for an interface name, in one of the trees
    [dirs]. *)
Definition per_interface_node (dirs leaves : list string) (path : string) : Prop :=
  exists dirname iface leaf,
    In dirname dirs /\ In leaf leaves /\
    (iface = "default" \/ isInterfaceName iface = true) /\
    path = path3 dirname iface leaf.

(** The trees and the nodes [initializeAll] is concerned with. *)
Definition initializeAll_trees : list string :=
  [ipv6_proc_path; ipv4_neigh_conf_dir; ipv6_neigh_conf_dir].

Definition initializeAll_leaves : list string :=
  ["accept_ra"; "accept_ra_rt_info_min_plen"; "accept_ra_rt_info_max_plen";
   "accept_ra_rt_table"; "optimistic_dad"; "use_optimistic";
   "base_reachable_time_ms"; "use_oif_addrs_only"].

(** [writes_within P m s]: run from [s], every file write of [m] satisfies [P]. *)
Definition writes_within {W A} (P : string * string -> Prop) (m : M W A) (s : state W)
    : Prop :=
  exists new, emits m s new /\ Forall P (written new).

(** * Properties *)

(** ** C strings *)

Lemma strcmp_refl a : strcmp a a = 0.
Proof.
  induction a as [|c a IH]; simpl; [reflexivity|].
  now rewrite Ascii.eqb_refl.
Qed.

Lemma strcmp_zero a b : strcmp a b = 0 <-> a = b.
Proof.
  split; [|intros ->; apply strcmp_refl].
  revert b; induction a as [|c a IH]; intros [|d b]; simpl; try easy.
  destruct (Ascii.eqb c d) eqn:E.
  - apply Ascii.eqb_eq in E. intros H. f_equal; auto.
  - destruct (N_of_ascii c <? N_of_ascii d)%N; discriminate.
Qed.

Lemma strcmp_eqb a b : (strcmp a b =? 0) = bool_decide (a = b).
Proof.
  destruct (bool_decide_reflect (a = b)) as [->|Hne].
  - now rewrite strcmp_refl.
  - apply Z.eqb_neq. now rewrite strcmp_zero.
Qed.

Lemma strchr_none s c : strchr s c = None <-> ~ In c (bytes s).
Proof.
  induction s as [|d s IH]; simpl.
  - tauto.
  - destruct (Ascii.eqb d c) eqn:E.
    + apply Ascii.eqb_eq in E. split; [discriminate|]. intros H; exfalso; auto.
    + apply Ascii.eqb_neq in E. rewrite IH. tauto.
Qed.

Lemma bytes_app a b : bytes (a +:+ b) = (bytes a ++ bytes b)%list.
Proof. induction a as [|c a IH]; simpl; [reflexivity|]. now rewrite <- IH. Qed.

Lemma bytes_inj a b : bytes a = bytes b -> a = b.
Proof.
  revert b; induction a as [|c a IH]; intros [|d b]; simpl; try easy.
  intros H; injection H as -> H. f_equal; auto.
Qed.

(** ** Path safety *)

Lemma isnull_strchr s c : isnull (strchr s c) = true <-> ~ In c (bytes s).
Proof.
  rewrite <- strchr_none. destruct (strchr s c); simpl; split; congruence.
Qed.

Lemma isNormalPathComponent_spec name :
  isNormalPathComponent name = true <->
  name <> "." /\ name <> ".." /\ ~ In "/"%char (bytes name).
Proof.
  unfold isNormalPathComponent.
  rewrite !andb_true_iff, !negb_true_iff, !strcmp_eqb, !bool_decide_eq_false.
  rewrite isnull_strchr. tauto.
Qed.

Lemma isAddressFamilyPathComponent_spec family :
  isAddressFamilyPathComponent family = true <-> family = "ipv4" \/ family = "ipv6".
Proof.
  unfold isAddressFamilyPathComponent.
  rewrite orb_true_iff, !strcmp_eqb, !bool_decide_eq_true. tauto.
Qed.

Lemma isInterfaceName_spec name :
  isInterfaceName name = true <->
  isNormalPathComponent name = true /\ name <> "default" /\ name <> "all".
Proof.
  unfold isInterfaceName.
  rewrite !andb_true_iff, !negb_true_iff, !strcmp_eqb, !bool_decide_eq_false.
  tauto.
Qed.

Lemma isInterfaceName_normal name :
  isNormalPathComponent name = false -> isInterfaceName name = false.
Proof. unfold isInterfaceName. now intros ->. Qed.


(** C3, as stated, fails: a name that merely contains a dot (a VLAN
    interface such as eth0.100) is a normal path component, so not every
    string containing "." is rejected. *)
Lemma isNormalPathComponent_accepts_inner_dot :
  ~ (forall name : string,
       In "/"%char (bytes name) \/ In "."%char (bytes name) \/ name = ".." ->
       isNormalPathComponent name = false).
Proof.
  intros H. specialize (H "eth0.100").
  assert (isNormalPathComponent "eth0.100" = true) as E by reflexivity.
  rewrite H in E; [discriminate|].
  right; left. simpl. tauto.
Qed.

(** C3 (amended): isNormalPathComponent returns true iff the name is neither
    "." nor ".." and contains no path separator; in particular it returns
    false on every string that contains "/", or equals "." or "..". *)
Theorem isNormalPathComponent_correct (name : string) :
  (isNormalPathComponent name = true <->
     name <> "." /\ name <> ".." /\ ~ In "/"%char (bytes name)) /\
  (In "/"%char (bytes name) \/ name = "." \/ name = ".." ->
     isNormalPathComponent name = false).
Proof.
  split; [apply isNormalPathComponent_spec|].
  intros H. apply not_true_is_false. rewrite isNormalPathComponent_spec. tauto.
Qed.

Lemma isNormalPathComponent_correct_witness :
  isNormalPathComponent "../../etc/passwd" = false /\
  isNormalPathComponent "." = false /\
  isNormalPathComponent ".." = false /\
  isNormalPathComponent "wlan0" = true.
Proof.
  split; [|split; [|split]].
  - apply (isNormalPathComponent_correct "../../etc/passwd"). left. simpl. tauto.
  - apply (isNormalPathComponent_correct "."). tauto.
  - apply (isNormalPathComponent_correct ".."). tauto.
  - apply (isNormalPathComponent_correct "wlan0"). simpl.
    repeat split; try discriminate.
    intros H. repeat (destruct H as [H|H]; [discriminate H|]). exact H.
Defined.

(** C8: isInterfaceName is false on "default" and on "all", both of which
    isNormalPathComponent accepts; on every other string the two predicates
    agree. *)
Theorem isInterfaceName_reserved (name : string) :
  isNormalPathComponent "default" = true /\
  isNormalPathComponent "all" = true /\
  isInterfaceName name =
    if bool_decide (name = "default" \/ name = "all") then false
    else isNormalPathComponent name.
Proof.
  split; [reflexivity|]. split; [reflexivity|].
  unfold isInterfaceName. rewrite !strcmp_eqb.
  destruct (bool_decide_reflect (name = "default" \/ name = "all")) as [[->| ->]|Hne].
  - reflexivity.
  - reflexivity.
  - rewrite !bool_decide_eq_false_2 by tauto. simpl. now rewrite !andb_true_r.
Qed.

(** ** The single-target setters *)

Section Setters.
Context {W : Type} `{!Platform W} `{!Netd}.

Lemma writeValueToPath_run dirname subdirname basename value (s : state W) :
  writeValueToPath dirname subdirname basename value s =
  let o := plat_WriteStringToFile value (path3 dirname subdirname basename) (world s) in
  (if result o then 0 else -1,
   State (new_world o) (default (errno s) (new_errno o))
         (trace s ++ [EvWriteStringToFile value (path3 dirname subdirname basename)
                                          (result o)])).
Proof. reflexivity. Qed.

Lemma setter_rejected op interface (s : state W) :
  isIfaceName interface = false ->
  run_setter op interface s = (-1, State (world s) ENOENT (trace s)).
Proof.
  intros E.
  destruct op; simpl;
    unfold setEnableIPv6, setAcceptIPv6Ra, setAcceptIPv6Dad, setIPv6DadTransmits,
           setIPv6PrivacyExtensions, setMtu;
    rewrite E; reflexivity.
Qed.

(** C6: each of the six single-target setters, on a name that fails the
    interface-name check, returns -1 with errno ENOENT and leaves the world
    and the trace as they were; on a name that passes it performs exactly one
    file write and returns 0 if that write succeeded and -1 if it failed. *)
Theorem single_target_setter_contract (op : setter) (interface : string) (s : state W) :
  if isIfaceName interface then
    exists content path,
      let o := plat_WriteStringToFile content path (world s) in
      run_setter op interface s =
        (if result o then 0 else -1,
         State (new_world o) (default (errno s) (new_errno o))
               (trace s ++ [EvWriteStringToFile content path (result o)]))
  else
    run_setter op interface s = (-1, State (world s) ENOENT (trace s)).
Proof.
  destruct (isIfaceName interface) eqn:E; [|now apply setter_rejected].
  destruct op; simpl;
    unfold setEnableIPv6, setAcceptIPv6Ra, setAcceptIPv6Dad, setIPv6DadTransmits,
           setIPv6PrivacyExtensions, setMtu;
    rewrite E; cbn [negb]; eexists _, _; apply writeValueToPath_run.
Qed.

(** C10: on a valid interface name setEnableIPv6 performs one platform
    write, of the inverted flag to the disable_ipv6 node of that interface:
    "0" when [on] is nonzero, "1" when it is zero. The world after the call
    is the one that write left, the trace grows by that write only, and the
    result is 0 or -1 by its success. *)
Theorem setEnableIPv6_writes_inverted (interface : string) (on : Z) (s : state W) :
  isIfaceName interface = true ->
  let disable_ipv6 := if on =? 0 then "1" else "0" in
  let path := "/proc/sys/net/ipv6/conf" +:+ "/" +:+ interface +:+ "/" +:+ "disable_ipv6" in
  let o := plat_WriteStringToFile disable_ipv6 path (world s) in
  setEnableIPv6 interface on s =
    (if result o then 0 else -1,
     State (new_world o) (default (errno s) (new_errno o))
           (trace s ++ [EvWriteStringToFile disable_ipv6 path (result o)])).
Proof.
  intros E. unfold setEnableIPv6, truthy. rewrite E. cbn [negb].
  rewrite writeValueToPath_run.
  destruct (on =? 0); reflexivity.
Qed.

(** C9: on a valid interface name setAcceptIPv6Ra performs one platform
    write, of "2" when enabling and "0" when disabling, to the accept_ra node
    of that interface, and setIPv6PrivacyExtensions one platform write of
    "2" resp. "0" to its use_tempaddr node. In each case the world after the
    call is the one that write left, the trace grows by that write only, the
    result is 0 or -1 by its success, and the value written is never "1". *)
Theorem accept_ra_and_privacy_values (interface : string) (on : Z) (s : state W) :
  isIfaceName interface = true ->
  let value := if on =? 0 then "0" else "2" in
  let accept_ra := "/proc/sys/net/ipv6/conf" +:+ "/" +:+ interface +:+ "/" +:+ "accept_ra" in
  let use_tempaddr :=
    "/proc/sys/net/ipv6/conf" +:+ "/" +:+ interface +:+ "/" +:+ "use_tempaddr" in
  let after path :=
    let o := plat_WriteStringToFile value path (world s) in
    (if result o then 0 else -1,
     State (new_world o) (default (errno s) (new_errno o))
           (trace s ++ [EvWriteStringToFile value path (result o)])) in
  setAcceptIPv6Ra interface on s = after accept_ra /\
  setIPv6PrivacyExtensions interface on s = after use_tempaddr /\
  value <> "1".
Proof.
  intros E. unfold setAcceptIPv6Ra, setIPv6PrivacyExtensions, truthy. rewrite E.
  cbn [negb]. rewrite !writeValueToPath_run.
  destruct (on =? 0); repeat split; discriminate.
Qed.

(** *** The named-parameter accessor *)

Lemma getParameterPathname_bad_family family which interface parameter (s : state W) :
  isAddressFamilyPathComponent family = false ->
  getParameterPathname family which interface parameter s =
    ("", State (world s) EAFNOSUPPORT (trace s)).
Proof. intros E. unfold getParameterPathname. now rewrite E. Qed.

Lemma getParameterPathname_bad_component family which interface parameter (s : state W) :
  isAddressFamilyPathComponent family = true ->
  isNormalPathComponent which && isInterfaceName interface &&
    isNormalPathComponent parameter = false ->
  getParameterPathname family which interface parameter s =
    ("", State (world s) EINVAL (trace s)).
Proof.
  intros E1 E2. unfold getParameterPathname. rewrite E1. simpl.
  rewrite <- !negb_andb, E2. reflexivity.
Qed.

Lemma accessor_rejects family which interface parameter value e (s : state W) :
  getParameterPathname family which interface parameter s =
    ("", State (world s) e (trace s)) ->
  getParameter family which interface parameter value s =
    ((- e, value), State (world s) e (trace s)) /\
  setParameter family which interface parameter value s =
    (- e, State (world s) e (trace s)).
Proof.
  intros E. unfold getParameter, setParameter, bind. rewrite E. now simpl.
Qed.

(** C7 (amended): with a family other than "ipv4" and "ipv6", getParameter and
    setParameter fail with -EAFNOSUPPORT; with a supported family and a
    category, interface or parameter component that fails validation they
    fail with -EINVAL. Both codes are negative and differ, and in either case
    the world and the trace are untouched (only errno is set). *)
Theorem accessor_validation_errors
    (family which interface parameter value : string) (s : state W) :
  (family <> "ipv4" -> family <> "ipv6" ->
     getParameter family which interface parameter value s =
       ((- EAFNOSUPPORT, value), State (world s) EAFNOSUPPORT (trace s)) /\
     setParameter family which interface parameter value s =
       (- EAFNOSUPPORT, State (world s) EAFNOSUPPORT (trace s))) /\
  (family = "ipv4" \/ family = "ipv6" ->
   isNormalPathComponent which = false \/ isInterfaceName interface = false \/
     isNormalPathComponent parameter = false ->
     getParameter family which interface parameter value s =
       ((- EINVAL, value), State (world s) EINVAL (trace s)) /\
     setParameter family which interface parameter value s =
       (- EINVAL, State (world s) EINVAL (trace s))) /\
  - EAFNOSUPPORT < 0 /\ - EINVAL < 0 /\ EAFNOSUPPORT <> EINVAL.
Proof.
  split; [|split; [|repeat split; discriminate]].
  - intros H4 H6. apply accessor_rejects, getParameterPathname_bad_family.
    apply not_true_is_false. rewrite isAddressFamilyPathComponent_spec. tauto.
  - intros Hf Hc. apply accessor_rejects, getParameterPathname_bad_component.
    + now apply isAddressFamilyPathComponent_spec.
    + destruct Hc as [-> | [-> | ->]];
        [reflexivity | apply andb_false_intro1, andb_false_r | apply andb_false_r].
Qed.


End Setters.

(** ** Enumeration *)

Section Enumeration.
Context {W : Type} `{!Platform W}.

Lemma bind_run {A B} (m : M W A) (k : A -> M W B) (s : state W) :
  bind m k s = k (fst (m s)) (snd (m s)).
Proof. unfold bind. now destruct (m s). Qed.

Lemma readdir_loop_invoke_each dirname fn entries (s : state W) :
  readdir_loop dirname fn entries s =
  invoke_each dirname fn (real_interfaces entries) s.
Proof.
  revert s. induction entries as [|ent rest IH]; intros s; [reflexivity|].
  unfold real_interfaces in *. simpl.
  destruct (d_type ent =? DT_DIR); simpl; [|apply IH].
  destruct (isInterfaceName (d_name ent)); simpl; [|apply IH].
  rewrite !bind_run. apply IH.
Qed.

Lemma forEachInterface_run dirname fn (s : state W) :
  let s1 := snd (fn dirname "default" s) in
  let s2 := snd (opendir dirname s1) in
  forEachInterface dirname fn s =
    match result (plat_opendir dirname (world s1)) with
    | None => log "E" "Can't list %s: %s" [LogStr dirname; LogStrerror (errno s2)] s2
    | Some entries =>
        (invoke_each dirname fn (real_interfaces entries) >> closedir dirname) s2
    end.
Proof.
  intros s1 s2. unfold forEachInterface. rewrite !bind_run. fold s1.
  change (fst (opendir dirname s1)) with (result (plat_opendir dirname (world s1))).
  fold s2. destruct (result (plat_opendir dirname (world s1))); [|reflexivity].
  rewrite !bind_run. now rewrite readdir_loop_invoke_each.
Qed.

Lemma real_interfaces_elem entries name :
  In name (real_interfaces entries) <->
  exists ent, In ent entries /\ d_type ent = DT_DIR /\
              isInterfaceName (d_name ent) = true /\ d_name ent = name.
Proof.
  unfold real_interfaces. rewrite in_map_iff. split.
  - intros (ent & <- & Hin). apply filter_In in Hin as (Hin & Hc).
    apply andb_true_iff in Hc as (Hd & Hn). apply Z.eqb_eq in Hd. eauto.
  - intros (ent & Hin & Hd & Hn & <-). exists ent. split; [reflexivity|].
    apply filter_In. split; [exact Hin|].
    apply andb_true_iff. split; [now apply Z.eqb_eq|exact Hn].
Qed.

(** C4: forEachInterface first runs the action on "default", whatever the
    directory holds; it then lists the directory. If that fails it logs the
    error and runs the action no more; otherwise it runs the action once per
    entry that is a directory with an interface name, in listing order,
    passing over plain files and reserved or unsafe names. *)
Theorem forEachInterface_contract
    (dirname : string) (fn : string -> string -> M W unit) (s : state W) :
  let s1 := snd (fn dirname "default" s) in
  let s2 := snd (opendir dirname s1) in
  forEachInterface dirname fn s =
    match result (plat_opendir dirname (world s1)) with
    | None => log "E" "Can't list %s: %s" [LogStr dirname; LogStrerror (errno s2)] s2
    | Some entries =>
        (invoke_each dirname fn
           (map d_name
              (List.filter
                 (fun e => (d_type e =? DT_DIR) && isInterfaceName (d_name e))
                 entries))
         >> closedir dirname) s2
    end.
Proof. apply forEachInterface_run. Qed.

End Enumeration.

(** The scenario of the specification: two interfaces, a plain file and the
    reserved entry "all"; and a directory that cannot be listed. *)
Example forEachInterface_two_interfaces :
  trace (snd (@forEachInterface _ (Fake.platform Fake.two_interfaces false)
                "/sys/class/net" visit Fake.boot)) =
  [EvLog "I" "visit %s/%s" [LogStr "/sys/class/net"; LogStr "default"];
   EvOpendir "/sys/class/net" true;
   EvLog "I" "visit %s/%s" [LogStr "/sys/class/net"; LogStr "wlan0"];
   EvLog "I" "visit %s/%s" [LogStr "/sys/class/net"; LogStr "eth0"];
   EvClosedir "/sys/class/net"].
Proof. reflexivity. Qed.

Example forEachInterface_unlistable :
  trace (snd (@forEachInterface _ (Fake.platform Fake.unlistable false)
                "/sys/class/net" visit Fake.boot)) =
  [EvLog "I" "visit %s/%s" [LogStr "/sys/class/net"; LogStr "default"];
   EvOpendir "/sys/class/net" false;
   EvLog "E" "Can't list %s: %s" [LogStr "/sys/class/net"; LogStrerror ENOENT]].
Proof. reflexivity. Qed.

(** ** Paths *)

Lemma path3_bytes a b c :
  bytes (path3 a b c) = bytes a ++ "/"%char :: bytes b ++ "/"%char :: bytes c.
Proof. unfold path3. now rewrite !bytes_app. Qed.

Lemma path3_inj dirname a b basename basename' :
  String.length basename = String.length basename' ->
  path3 dirname a basename = path3 dirname b basename' ->
  a = b /\ basename = basename'.
Proof.
  assert (Hlen : forall x, String.length x = length (bytes x)).
  { induction x; simpl; congruence. }
  intros Hl Heq. apply (f_equal bytes) in Heq. rewrite !path3_bytes in Heq.
  apply app_inv_head in Heq. injection Heq as Heq.
  apply app_inj_2 in Heq as [Ha Hb].
  - injection Hb as Hb. split; now apply bytes_inj.
  - simpl. rewrite <- !Hlen. congruence.
Qed.

Lemma min_max_paths_differ a b : min_plen_path a <> max_plen_path b.
Proof.
  unfold min_plen_path, max_plen_path. intros Heq.
  apply path3_inj in Heq as [_ Heq]; [discriminate|reflexivity].
Qed.

Lemma max_plen_path_inj a b : max_plen_path a = max_plen_path b -> a = b.
Proof.
  unfold max_plen_path. intros Heq.
  now apply path3_inj in Heq as [Heq _].
Qed.

(** ** The ordered pair of writes *)

Lemma writes_app t1 t2 : writes (t1 ++ t2) = writes t1 ++ writes t2.
Proof. unfold writes. apply List.filter_app. Qed.

Lemma rio_pass_app min max l1 l2 t1 t2 :
  rio_pass min max l1 t1 -> rio_pass min max l2 t2 ->
  rio_pass min max (l1 ++ l2) (t1 ++ t2).
Proof.
  induction 1; intros H2; simpl; [exact H2| |]; constructor; auto.
Qed.

(** In a pass, whatever precedes a write of a maximum ends with the
    successful write of the minimum of the same interface. *)
Lemma rio_pass_max_after_min min max ifaces t :
  rio_pass min max ifaces t ->
  forall pre value iface ok post,
    t = pre ++ EvWriteStringToFile value (max_plen_path iface) ok :: post ->
    exists pre',
      pre = pre' ++ [EvWriteStringToFile (to_string min) (min_plen_path iface) true].
Proof.
  induction 1 as [|iface0 ifaces t Hp IH|iface0 ok0 ifaces t Hp IH];
    intros pre value iface ok post Heq.
  - now destruct pre.
  - destruct pre as [|e pre]; simpl in Heq.
    + exfalso. apply (min_max_paths_differ iface0 iface). congruence.
    + assert (t = pre ++ EvWriteStringToFile value (max_plen_path iface) ok :: post)
        as Ht by congruence.
      destruct (IH _ _ _ _ _ Ht) as [pre' ->].
      exists (e :: pre'). simpl. congruence.
  - destruct pre as [|e1 [|e2 pre]]; simpl in Heq.
    + exfalso. apply (min_max_paths_differ iface0 iface). congruence.
    + assert (iface0 = iface) as -> by (apply max_plen_path_inj; congruence).
      exists []. simpl. congruence.
    + assert (t = pre ++ EvWriteStringToFile value (max_plen_path iface) ok :: post)
        as Ht by congruence.
      destruct (IH _ _ _ _ _ Ht) as [pre' ->].
      exists (e1 :: e2 :: pre'). reflexivity.
Qed.

Section OrderedWrite.
Context {W : Type} `{!Platform W}.

Lemma emits_bind {A B} (m : M W A) (k : A -> M W B) s n1 n2 :
  emits m s n1 -> emits (k (fst (m s))) (snd (m s)) n2 ->
  emits (bind m k) s (n1 ++ n2).
Proof.
  unfold emits. intros H1 H2. rewrite bind_run, H2, H1. now rewrite app_assoc.
Qed.

Lemma emits_since {A} (m : M W A) s new :
  emits m s new -> drop (length (trace s)) (trace (snd (m s))) = new.
Proof. unfold emits. intros ->. now rewrite drop_app_length. Qed.

Lemma rio_fn_emits min max iface (s : state W) :
  exists new,
    emits (rio_fn min max ipv6_proc_path iface) s new /\
    rio_pass min max [iface] new /\
    written new =
      (min_plen_path iface, to_string min) ::
      if result (plat_WriteStringToFile (to_string min) (min_plen_path iface) (world s))
      then [(max_plen_path iface, to_string max)] else [].
Proof.
  unfold emits, rio_fn. rewrite bind_run, writeValueToPath_run. cbn zeta.
  fold (min_plen_path iface).
  destruct (result (plat_WriteStringToFile (to_string min) (min_plen_path iface) (world s)))
    eqn:Hok; cbn [fst snd negb Z.eqb].
  - rewrite bind_run, writeValueToPath_run. cbn [fst snd trace pure].
    fold (max_plen_path iface). rewrite <- app_assoc. eexists. split; [reflexivity|].
    split; [repeat constructor|reflexivity].
  - cbn [pure snd trace]. eexists. split; [reflexivity|].
    split; [repeat constructor|reflexivity].
Qed.

Lemma invoke_each_rio_emits min max ifaces (s : state W) :
  exists new,
    emits (invoke_each ipv6_proc_path (rio_fn min max) ifaces) s new /\
    rio_pass min max ifaces (writes new).
Proof.
  revert s. induction ifaces as [|iface ifaces IH]; intros s.
  - exists []. split; [unfold emits; simpl; now rewrite app_nil_r|constructor].
  - destruct (rio_fn_emits min max iface s) as (n1 & He1 & Hp1 & _).
    destruct (IH (snd (rio_fn min max ipv6_proc_path iface s))) as (n2 & He2 & Hp2).
    exists (n1 ++ n2). split.
    + simpl. now apply emits_bind.
    + rewrite writes_app. apply (rio_pass_app min max [iface] ifaces); [|exact Hp2].
      replace (writes n1) with n1; [exact Hp1|].
      clear -Hp1. inversion Hp1 as [|? ? ? Hn|? ? ? ? Hn]; inversion Hn; reflexivity.
Qed.

Lemma setAcceptIPv6RIO_trace_shape (min max : Z) (s : state W) :
  let s1 := snd (rio_fn min max ipv6_proc_path "default" s) in
  let visited := "default" :: listing ipv6_proc_path (world s1) in
  exists new,
    trace (snd (setAcceptIPv6RIO min max s)) = trace s ++ new /\
    rio_pass min max visited (writes new) /\
    (forall pre value iface ok post,
       writes new = pre ++ EvWriteStringToFile value (max_plen_path iface) ok :: post ->
       exists pre',
         pre = pre' ++
               [EvWriteStringToFile (to_string min) (min_plen_path iface) true]).
Proof.
  intros s1 visited.
  assert (exists new, trace (snd (setAcceptIPv6RIO min max s)) = trace s ++ new /\
                      rio_pass min max visited (writes new)) as (new & Ht & Hp).
  { unfold setAcceptIPv6RIO. rewrite forEachInterface_run. fold s1.
    destruct (rio_fn_emits min max "default" s) as (n1 & He1 & Hp1 & _).
    change (trace s1 = trace s ++ n1) in He1.
    assert (writes n1 = n1) as Hw1.
    { clear -Hp1. inversion Hp1 as [|? ? ? Hn|? ? ? ? Hn]; inversion Hn; reflexivity. }
    unfold visited, listing.
    destruct (result (plat_opendir ipv6_proc_path (world s1))) as [entries|] eqn:Hdir.
    - destruct (invoke_each_rio_emits min max (real_interfaces entries)
                  (snd (opendir ipv6_proc_path s1))) as (n2 & He2 & Hp2).
      exists (n1 ++ [EvOpendir ipv6_proc_path true] ++ n2 ++ [EvClosedir ipv6_proc_path]).
      split.
      + rewrite bind_run. unfold emits in He2. cbn [closedir snd trace].
        rewrite He2. cbn [opendir call snd trace]. rewrite Hdir, He1.
        cbn [isnull negb]. now rewrite <- !app_assoc.
      + rewrite !writes_app, Hw1. cbn [writes List.filter is_write].
        rewrite app_nil_r. cbn [app].
        apply (rio_pass_app min max ["default"]); assumption.
    - exists (n1 ++ [EvOpendir ipv6_proc_path false;
                     EvLog "E" "Can't list %s: %s"
                       [LogStr ipv6_proc_path;
                        LogStrerror (errno (snd (opendir ipv6_proc_path s1)))]]).
      split.
      + cbn [log snd trace opendir call]. rewrite Hdir, He1.
        cbn [isnull negb]. now rewrite <- !app_assoc.
      + rewrite writes_app, Hw1. cbn [writes List.filter is_write].
        now rewrite app_nil_r. }
  exists new. split; [exact Ht|]. split; [exact Hp|].
  now apply (rio_pass_max_after_min min max visited).
Qed.

Lemma rio_fn_run min max iface (s : state W) :
  rio_fn min max ipv6_proc_path iface s = (tt, rio_interface min max iface s).
Proof.
  unfold rio_fn, rio_interface. rewrite bind_run, writeValueToPath_run. cbn zeta.
  fold (min_plen_path iface). cbn [fst snd].
  destruct (result (plat_WriteStringToFile (to_string min) (min_plen_path iface) (world s)));
    cbn [negb Z.eqb]; [|reflexivity].
  rewrite bind_run, writeValueToPath_run. reflexivity.
Qed.

Lemma invoke_each_rio_run min max ifaces (s : state W) :
  invoke_each ipv6_proc_path (rio_fn min max) ifaces s =
  (tt, fold_left (fun st iface => rio_interface min max iface st) ifaces s).
Proof.
  revert s. induction ifaces as [|iface ifaces IH]; intros s; [reflexivity|].
  cbn [invoke_each fold_left]. rewrite bind_run, rio_fn_run. apply IH.
Qed.

(** C1: one pass of setAcceptIPv6RIO handles "default" and then the real
    interfaces the listing shows, each by the ordered pair: the platform's
    write of the minimum, and on the world it left the platform's write of
    the maximum exactly when the minimum reported success; a failure on one
    interface changes nothing for the others. The world, errno and trace
    after the pass are those of these writes. Hence the write trace has the
    shape of such a pass, and every write of a maximum comes directly after
    the successful write of the minimum of the same interface. *)
Theorem setAcceptIPv6RIO_ordered (min max : Z) (s : state W) :
  let s1 := rio_interface min max "default" s in
  let dir := plat_opendir ipv6_proc_path (world s1) in
  let s2 := State (new_world dir) (default (errno s1) (new_errno dir))
              (trace s1 ++ [EvOpendir ipv6_proc_path (negb (isnull (result dir)))]) in
  let visited := "default" :: listing ipv6_proc_path (world s1) in
  setAcceptIPv6RIO min max s =
    (tt,
     match result dir with
     | None =>
         State (world s2) (errno s2)
           (trace s2 ++ [EvLog "E" "Can't list %s: %s"
                           [LogStr ipv6_proc_path; LogStrerror (errno s2)]])
     | Some entries =>
         let s3 := fold_left (fun st iface => rio_interface min max iface st)
                             (real_interfaces entries) s2 in
         State (world s3) (errno s3) (trace s3 ++ [EvClosedir ipv6_proc_path])
     end) /\
  exists new,
    trace (snd (setAcceptIPv6RIO min max s)) = trace s ++ new /\
    rio_pass min max visited (writes new) /\
    (forall pre value iface ok post,
       writes new = pre ++ EvWriteStringToFile value (max_plen_path iface) ok :: post ->
       exists pre',
         pre = pre' ++
               [EvWriteStringToFile (to_string min) (min_plen_path iface) true]).
Proof.
  intros s1 dir s2 visited. split.
  - unfold setAcceptIPv6RIO. rewrite forEachInterface_run, rio_fn_run.
    cbn [snd]. fold s1. fold dir.
    change (snd (opendir ipv6_proc_path s1)) with s2.
    destruct (result dir); [|reflexivity].
    rewrite bind_run, invoke_each_rio_run. reflexivity.
  - pose proof (setAcceptIPv6RIO_trace_shape min max s) as H.
    cbv zeta in H. rewrite rio_fn_run in H. exact H.
Qed.

End OrderedWrite.

(** ** Initialization *)

Section Initialization.
Context {W : Type} `{!Platform W} `{!Netd}.

Lemma written_app t1 t2 : written (t1 ++ t2) = written t1 ++ written t2.
Proof. unfold written. apply flat_map_app. Qed.


Lemma performs_seq {A B} (m : M W A) (k : M W B) s ws1 ws2 :
  performs m s ws1 -> performs k (snd (m s)) ws2 ->
  performs (m >> k) s (ws1 ++ ws2).
Proof.
  intros (n1 & He1 & Hw1) (n2 & He2 & Hw2). exists (n1 ++ n2). split.
  - now apply emits_bind.
  - now rewrite written_app, Hw1, Hw2.
Qed.




End Initialization.

(** ** The properties at work on the fake filesystem *)

(** A pass over two interfaces of which only eth0 has the nodes: the failed
    minimum of wlan0 suppresses its maximum and nothing else. *)
Example setAcceptIPv6RIO_one_unwritable :
  trace (snd (@setAcceptIPv6RIO _ (Fake.platform Fake.two_interfaces false) 48 64
                (Fake.booted (Fake.kernel ["default"; "eth0"])))) =
  [EvWriteStringToFile "48" "/proc/sys/net/ipv6/conf/default/accept_ra_rt_info_min_plen" true;
   EvWriteStringToFile "64" "/proc/sys/net/ipv6/conf/default/accept_ra_rt_info_max_plen" true;
   EvOpendir "/proc/sys/net/ipv6/conf" true;
   EvWriteStringToFile "48" "/proc/sys/net/ipv6/conf/wlan0/accept_ra_rt_info_min_plen" false;
   EvWriteStringToFile "48" "/proc/sys/net/ipv6/conf/eth0/accept_ra_rt_info_min_plen" true;
   EvWriteStringToFile "64" "/proc/sys/net/ipv6/conf/eth0/accept_ra_rt_info_max_plen" true;
   EvClosedir "/proc/sys/net/ipv6/conf"].
Proof. reflexivity. Qed.

Lemma setAcceptIPv6RIO_ordered_witness :
  let r := @setAcceptIPv6RIO _ (Fake.platform Fake.two_interfaces false) 48 64
             (Fake.booted (Fake.kernel ["default"; "eth0"])) in
  world (snd r) !! "/proc/sys/net/ipv6/conf/default/accept_ra_rt_info_min_plen" = Some "48" /\
  world (snd r) !! "/proc/sys/net/ipv6/conf/default/accept_ra_rt_info_max_plen" = Some "64" /\
  world (snd r) !! "/proc/sys/net/ipv6/conf/wlan0/accept_ra_rt_info_min_plen" = None /\
  world (snd r) !! "/proc/sys/net/ipv6/conf/wlan0/accept_ra_rt_info_max_plen" = None /\
  world (snd r) !! "/proc/sys/net/ipv6/conf/eth0/accept_ra_rt_info_min_plen" = Some "48" /\
  world (snd r) !! "/proc/sys/net/ipv6/conf/eth0/accept_ra_rt_info_max_plen" = Some "64" /\
  written (trace (snd r)) =
    [("/proc/sys/net/ipv6/conf/default/accept_ra_rt_info_min_plen", "48");
     ("/proc/sys/net/ipv6/conf/default/accept_ra_rt_info_max_plen", "64");
     ("/proc/sys/net/ipv6/conf/wlan0/accept_ra_rt_info_min_plen", "48");
     ("/proc/sys/net/ipv6/conf/eth0/accept_ra_rt_info_min_plen", "48");
     ("/proc/sys/net/ipv6/conf/eth0/accept_ra_rt_info_max_plen", "64")].
Proof.
  cbv zeta.
  rewrite (proj1 (@setAcceptIPv6RIO_ordered _ (Fake.platform Fake.two_interfaces false) 48 64
                    (Fake.booted (Fake.kernel ["default"; "eth0"])))).
  vm_compute. repeat split.
Defined.

(** The setters on a rejected and on an accepted name. *)
Example setMtu_rejected :
  @setMtu _ (Fake.platform Fake.two_interfaces false) Fake.netd "default" "1500"
    (Fake.booted (Fake.kernel ["default"; "eth0"])) =
  (-1, State (Fake.kernel ["default"; "eth0"]) ENOENT []).
Proof. reflexivity. Qed.

Example setMtu_accepted :
  let r := @setMtu _ (Fake.platform Fake.two_interfaces false) Fake.netd "eth0" "1500"
             (Fake.booted (Fake.kernel ["default"; "eth0"])) in
  fst r = 0 /\
  trace (snd r) = [EvWriteStringToFile "1500" "/sys/class/net/eth0/mtu" true] /\
  world (snd r) !! "/sys/class/net/eth0/mtu" = Some "1500".
Proof. vm_compute. auto. Qed.



Lemma setEnableIPv6_writes_inverted_witness :
  let r := @setEnableIPv6 _ (Fake.platform Fake.two_interfaces false) Fake.netd
             "wlan0" 0 (Fake.booted (Fake.kernel ["default"; "wlan0"])) in
  fst r = 0 /\
  world (snd r) !! "/proc/sys/net/ipv6/conf/wlan0/disable_ipv6" = Some "1" /\
  trace (snd r) =
    [EvWriteStringToFile "1" "/proc/sys/net/ipv6/conf/wlan0/disable_ipv6" true].
Proof.
  cbv zeta.
  rewrite (@setEnableIPv6_writes_inverted _ (Fake.platform Fake.two_interfaces false)
             Fake.netd "wlan0" 0 (Fake.booted (Fake.kernel ["default"; "wlan0"])) eq_refl).
  vm_compute. repeat split.
Defined.

Lemma accept_ra_and_privacy_values_witness :
  let ra := @setAcceptIPv6Ra _ (Fake.platform Fake.two_interfaces false) Fake.netd
              "wlan0" 1 (Fake.booted (Fake.kernel ["default"; "wlan0"])) in
  let pe := @setIPv6PrivacyExtensions _ (Fake.platform Fake.two_interfaces false)
              Fake.netd "wlan0" 1 (Fake.booted (Fake.kernel ["default"; "wlan0"])) in
  world (snd ra) !! "/proc/sys/net/ipv6/conf/wlan0/accept_ra" = Some "2" /\
  trace (snd ra) =
    [EvWriteStringToFile "2" "/proc/sys/net/ipv6/conf/wlan0/accept_ra" true] /\
  world (snd pe) !! "/proc/sys/net/ipv6/conf/wlan0/use_tempaddr" = Some "2" /\
  trace (snd pe) =
    [EvWriteStringToFile "2" "/proc/sys/net/ipv6/conf/wlan0/use_tempaddr" true].
Proof.
  cbv zeta.
  destruct (@accept_ra_and_privacy_values _ (Fake.platform Fake.two_interfaces false)
              Fake.netd "wlan0" 1 (Fake.booted (Fake.kernel ["default"; "wlan0"])) eq_refl)
    as (-> & -> & _).
  vm_compute. repeat split.
Defined.

(** C7, as stated, fails: with an unsupported family a failing
    category does not give the invalid-argument error, since the family is
    tested first. *)
Lemma accessor_family_error_first :
  ~ (forall (family which interface parameter value : string)
            (s : state (gmap string string)),
       isNormalPathComponent which = false ->
       fst (@setParameter _ (Fake.platform Fake.two_interfaces false)
              family which interface parameter value s) = - EINVAL).
Proof.
  intros H. specialize (H "ipx" ".." "eth0" "accept_ra" "2" Fake.boot eq_refl).
  discriminate H.
Qed.

Lemma accessor_validation_errors_witness :
  @getParameter _ (Fake.platform Fake.two_interfaces false)
    "ipx" "conf" "eth0" "accept_ra" "" Fake.boot =
    ((-97, ""), State ∅ 97 []) /\
  @setParameter _ (Fake.platform Fake.two_interfaces false)
    "ipv6" "conf" "eth0" "../../../etc/hosts" "1" Fake.boot =
    (-22, State ∅ 22 []).
Proof.
  split.
  - apply (@accessor_validation_errors _ (Fake.platform Fake.two_interfaces false)
             "ipx" "conf" "eth0" "accept_ra" "" Fake.boot); discriminate.
  - apply (@accessor_validation_errors _ (Fake.platform Fake.two_interfaces false)
             "ipv6" "conf" "eth0" "../../../etc/hosts" "1" Fake.boot);
      [right; reflexivity | right; right; reflexivity].
Defined.



(** * Further properties of the controller *)

(** ** Names and paths *)

(** X1: isInterfaceName accepts exactly the names other than ".", "..",
    "default" and "all" that contain no separator; the empty name is among
    them. *)
Theorem isInterfaceName_characterization (name : string) :
  (isInterfaceName name = true <->
     name <> "." /\ name <> ".." /\ name <> "default" /\ name <> "all" /\
     ~ In "/"%char (bytes name)) /\
  isInterfaceName "" = true.
Proof.
  split; [|reflexivity].
  rewrite isInterfaceName_spec, isNormalPathComponent_spec. tauto.
Qed.

Lemma components_plain a : ~ In "/"%char (bytes a) -> components a = [a].
Proof.
  induction a as [|c a IH]; simpl; [reflexivity|]. intros Hn.
  destruct (Ascii.eqb c "/") eqn:E.
  - apply Ascii.eqb_eq in E. tauto.
  - rewrite IH by tauto. reflexivity.
Qed.

Lemma components_app a b :
  ~ In "/"%char (bytes a) ->
  components (a +:+ "/" +:+ b) = a :: components b.
Proof.
  induction a as [|c a IH]; simpl; [reflexivity|]. intros Hn.
  destruct (Ascii.eqb c "/") eqn:E.
  - apply Ascii.eqb_eq in E. tauto.
  - rewrite IH by tauto. reflexivity.
Qed.

Lemma slash_free_prefix_inj a a' x y :
  ~ In "/"%char (bytes a) -> ~ In "/"%char (bytes a') ->
  bytes a ++ "/"%char :: x = bytes a' ++ "/"%char :: y ->
  a = a' /\ x = y.
Proof.
  revert a'. induction a as [|c a IH]; intros [|c' a'] Ha Ha' Heq; simpl in *.
  - split; congruence.
  - exfalso. apply Ha'. left. congruence.
  - exfalso. apply Ha. left. congruence.
  - injection Heq as -> Heq. destruct (IH a') as [-> ->]; tauto.
Qed.

(** X2: under one directory, the path strings built for two separator-free
    interface names are equal only if the names and the leaves are: the
    writes for two different interfaces never carry the same path. *)
Theorem path3_collision_free (dirname a a' leaf leaf' : string) :
  ~ In "/"%char (bytes a) -> ~ In "/"%char (bytes a') ->
  path3 dirname a leaf = path3 dirname a' leaf' ->
  a = a' /\ leaf = leaf'.
Proof.
  intros Ha Ha' Heq. apply (f_equal bytes) in Heq. rewrite !path3_bytes in Heq.
  apply app_inv_head in Heq. injection Heq as Heq.
  apply slash_free_prefix_inj in Heq as [-> Hl]; [|assumption..].
  split; [reflexivity|now apply bytes_inj].
Qed.

Lemma path3_collision_free_witness :
  path3 "/sys/class/net" "eth0" "mtu" <> path3 "/sys/class/net" "wlan0" "mtu" /\
  path3 "/proc/sys/net/ipv6/conf" "eth0" "accept_ra" <>
    path3 "/proc/sys/net/ipv6/conf" "eth0" "accept_ra_rt_table".
Proof.
  assert (forall name, In name ["eth0"; "wlan0"] -> ~ In "/"%char (bytes name)) as Hfree.
  { intros name [<- | [<- | []]]; simpl;
      intros H; repeat (destruct H as [H|H]; [discriminate H|]); exact H. }
  split; intros Heq.
  - apply (path3_collision_free "/sys/class/net" "eth0" "wlan0" "mtu" "mtu") in Heq
      as [Hname _]; [discriminate Hname| |]; apply Hfree; simpl; auto.
  - apply (path3_collision_free "/proc/sys/net/ipv6/conf" "eth0" "eth0"
             "accept_ra" "accept_ra_rt_table") in Heq
      as [_ Hleaf]; [discriminate Hleaf| |]; apply Hfree; simpl; auto.
Defined.

(** ** The accessor on accepted components *)

Section Accessor.
Context {W : Type} `{!Platform W}.

Lemma getParameterPathname_accepted family which interface parameter (s : state W) :
  isAddressFamilyPathComponent family = true ->
  isNormalPathComponent which = true ->
  isInterfaceName interface = true ->
  isNormalPathComponent parameter = true ->
  getParameterPathname family which interface parameter s =
    (path5 proc_net_path family which interface parameter, s).
Proof.
  intros Hf Hw Hi Hp. unfold getParameterPathname. now rewrite Hf, Hw, Hi, Hp.
Qed.

Lemma path5_nonempty a b c d e : path5 a b c d e <> "" \/ a = "".
Proof. destruct a; [now right|left; discriminate]. Qed.

Lemma accessor_path_nonempty family which interface parameter :
  bool_decide (path5 proc_net_path family which interface parameter = "") = false.
Proof.
  apply bool_decide_eq_false.
  destruct (path5_nonempty proc_net_path family which interface parameter) as [H|H];
    [exact H|discriminate H].
Qed.

(** X3: on four accepted components the accessor's path string, split at
    its separators, is exactly "", proc, sys, net, family, category,
    interface, parameter, and none of the three free ones is "." or "..".
    (A free component may be empty: the checks accept the empty string.) *)
Theorem accessor_path_components
    (family which interface parameter : string) (s : state W) :
  isAddressFamilyPathComponent family = true ->
  isNormalPathComponent which = true ->
  isInterfaceName interface = true ->
  isNormalPathComponent parameter = true ->
  components (fst (getParameterPathname family which interface parameter s)) =
    [""; "proc"; "sys"; "net"; family; which; interface; parameter] /\
  Forall (fun c => c <> "." /\ c <> "..") [which; interface; parameter].
Proof.
  intros Hf Hw Hi Hp.
  rewrite getParameterPathname_accepted by assumption. cbn [fst].
  pose proof (proj1 (isInterfaceName_spec interface) Hi) as (Hi' & _ & _).
  apply isNormalPathComponent_spec in Hw as (Hw1 & Hw2 & Hw3).
  apply isNormalPathComponent_spec in Hi' as (Hi1 & Hi2 & Hi3).
  apply isNormalPathComponent_spec in Hp as (Hp1 & Hp2 & Hp3).
  split; [|repeat constructor; assumption].
  assert (~ In "/"%char (bytes family)) as Hf3.
  { apply isAddressFamilyPathComponent_spec in Hf as [-> | ->]; simpl;
      intros H; repeat (destruct H as [H|H]; [discriminate H|]); exact H. }
  unfold path5, proc_net_path.
  change (components ("/proc/sys/net" +:+ "/" +:+ family +:+ "/" +:+ which +:+ "/" +:+
                      interface +:+ "/" +:+ parameter))
    with ("" :: "proc" :: "sys" :: "net" ::
          components (family +:+ "/" +:+ which +:+ "/" +:+ interface +:+ "/" +:+ parameter)).
  rewrite !components_app by assumption.
  now rewrite components_plain by assumption.
Qed.

(** X4: on four accepted components getParameter performs exactly one read,
    of /proc/sys/net/family/category/interface/parameter; it returns 0 with
    the content read on success, and the negated errno left by the read on
    failure. *)
Theorem getParameter_reads_once
    (family which interface parameter value : string) (s : state W) :
  isAddressFamilyPathComponent family = true ->
  isNormalPathComponent which = true ->
  isInterfaceName interface = true ->
  isNormalPathComponent parameter = true ->
  let path := "/proc/sys/net" +:+ "/" +:+ family +:+ "/" +:+ which +:+ "/" +:+
              interface +:+ "/" +:+ parameter in
  let o := plat_ReadFileToString path (world s) in
  let errno' := default (errno s) (new_errno o) in
  getParameter family which interface parameter value s =
    ((if fst (result o) then 0 else - errno', snd (result o)),
     State (new_world o) errno' (trace s ++ [EvReadFileToString path (fst (result o))])).
Proof.
  intros Hf Hw Hi Hp path o errno'. unfold getParameter.
  rewrite bind_run, getParameterPathname_accepted by assumption. cbn [fst snd].
  rewrite accessor_path_nonempty, bind_run.
  unfold ReadFileToString, call. cbn [fst snd].
  change (path5 proc_net_path family which interface parameter) with path.
  fold o. destruct (fst (result o)); reflexivity.
Qed.

(** X5: on four accepted components setParameter performs exactly one write,
    of the value as given to /proc/sys/net/family/category/interface/parameter;
    it returns 0 on success and the negated errno left by the write on
    failure. *)
Theorem setParameter_writes_once
    (family which interface parameter value : string) (s : state W) :
  isAddressFamilyPathComponent family = true ->
  isNormalPathComponent which = true ->
  isInterfaceName interface = true ->
  isNormalPathComponent parameter = true ->
  let path := "/proc/sys/net" +:+ "/" +:+ family +:+ "/" +:+ which +:+ "/" +:+
              interface +:+ "/" +:+ parameter in
  let o := plat_WriteStringToFile value path (world s) in
  let errno' := default (errno s) (new_errno o) in
  setParameter family which interface parameter value s =
    (if result o then 0 else - errno',
     State (new_world o) errno' (trace s ++ [EvWriteStringToFile value path (result o)])).
Proof.
  intros Hf Hw Hi Hp path o errno'. unfold setParameter.
  rewrite bind_run, getParameterPathname_accepted by assumption. cbn [fst snd].
  rewrite accessor_path_nonempty, bind_run.
  unfold WriteStringToFile, call. cbn [fst snd].
  change (path5 proc_net_path family which interface parameter) with path.
  fold o. destruct (result o); reflexivity.
Qed.

End Accessor.

(** ** The setters not covered so far, and the vendor helper *)

Section OtherSetters.
Context {W : Type} `{!Platform W} `{!Netd}.

(** X6: on a valid interface name setAcceptIPv6Dad performs one platform
    write of "1" (on nonzero) or "0" to accept_dad, setIPv6DadTransmits one
    of its value as given to dad_transmits, and setMtu one of its value as
    given to /sys/class/net/interface/mtu. In each case the world after the
    call is the one that write left, the trace grows by that write only, and
    the result is 0 or -1 by its success. *)
Theorem dad_and_mtu_targets (interface value mtu : string) (on : Z) (s : state W) :
  isIfaceName interface = true ->
  let after content path :=
    let o := plat_WriteStringToFile content path (world s) in
    (if result o then 0 else -1,
     State (new_world o) (default (errno s) (new_errno o))
           (trace s ++ [EvWriteStringToFile content path (result o)])) in
  setAcceptIPv6Dad interface on s =
    after (if on =? 0 then "0" else "1")
          ("/proc/sys/net/ipv6/conf" +:+ "/" +:+ interface +:+ "/" +:+ "accept_dad") /\
  setIPv6DadTransmits interface value s =
    after value
          ("/proc/sys/net/ipv6/conf" +:+ "/" +:+ interface +:+ "/" +:+ "dad_transmits") /\
  setMtu interface mtu s =
    after mtu ("/sys/class/net" +:+ "/" +:+ interface +:+ "/" +:+ "mtu").
Proof.
  intros E after. unfold setAcceptIPv6Dad, setIPv6DadTransmits, setMtu, truthy.
  rewrite E. cbn [negb]. rewrite !writeValueToPath_run.
  destruct (on =? 0); repeat split; reflexivity.
Qed.

(** X7: setIPv6NdOffload first probes the vendor helper with access(X_OK).
    If the probe fails it returns 0 and does nothing else. If it succeeds it
    runs the helper once with the arguments -a interface ndoe 1 (on nonzero)
    or 0, logs the outcome, and returns the helper's status. *)
Theorem setIPv6NdOffload_probe (interface : string) (on : Z) (s : state W) :
  let probe := plat_access "/vendor/xbin/wlutil" X_OK (world s) in
  let errno1 := default (errno s) (new_errno probe) in
  let argv := ["/vendor/xbin/wlutil"; "-a"; interface; "ndoe";
               if on =? 0 then "0" else "1"] in
  let run := plat_android_fork_execvp argv (new_world probe) in
  let errno2 := default errno1 (new_errno run) in
  setIPv6NdOffload interface on s =
    if result probe =? 0 then
      (result run,
       State (new_world run) errno2
         (trace s ++
          [EvAccess "/vendor/xbin/wlutil" X_OK (result probe);
           EvForkExecvp argv (result run);
           EvLog "D" "%s ND offload on %s: %d (%s)"
             [LogStr (if on =? 0 then "disabling" else "enabling");
              LogStr interface; LogInt (result run); LogStrerror errno2]]))
    else
      (0, State (new_world probe) errno1
            (trace s ++ [EvAccess "/vendor/xbin/wlutil" X_OK (result probe)])).
Proof.
  intros probe errno1 argv run errno2.
  unfold setIPv6NdOffload. rewrite bind_run. unfold call at 1 2. cbn [fst snd].
  change (plat_access wl_util_path X_OK (world s)) with probe.
  destruct (result probe =? 0); [|reflexivity].
  subst errno2 run argv. unfold truthy, bind, call, get_errno, log, pure.
  cbn [fst snd world errno trace]. fold probe. fold errno1.
  destruct (on =? 0); cbn [negb]; now rewrite <- !app_assoc.
Qed.

End OtherSetters.

(** ** Bulk application *)

Section Bulk.
Context {W : Type} `{!Platform W}.

Lemma emits_nil_inv {A} (a : A) (s : state W) n : emits (pure a) s n -> n = [].
Proof.
  unfold emits, pure. cbn [snd]. intros H.
  apply (app_inv_head (trace s)). now rewrite app_nil_r.
Qed.

Lemma forEachInterface_split dirname fn (s : state W) n0 n1 :
  let s1 := snd (fn dirname "default" s) in
  emits (fn dirname "default") s n0 ->
  emits (invoke_each dirname fn (listing dirname (world s1))) (snd (opendir dirname s1)) n1 ->
  exists new,
    emits (forEachInterface dirname fn) s new /\
    written new = written n0 ++ written n1.
Proof.
  intros s1 He0 He1. unfold emits in He0. fold s1 in He0.
  unfold emits. rewrite forEachInterface_run. fold s1.
  unfold listing in He1.
  destruct (result (plat_opendir dirname (world s1))) as [entries|] eqn:Hdir.
  - exists (n0 ++ [EvOpendir dirname true] ++ n1 ++ [EvClosedir dirname]). split.
    + rewrite bind_run. unfold emits in He1. cbn [closedir snd trace].
      rewrite He1. cbn [opendir call snd trace]. rewrite Hdir, He0.
      cbn [isnull negb]. now rewrite <- !app_assoc.
    + rewrite !written_app. cbn [written flat_map app]. now rewrite !app_nil_r.
  - apply emits_nil_inv in He1 as ->.
    eexists (n0 ++ [EvOpendir dirname false; EvLog _ _ _]). split.
    + cbn [log opendir call snd trace]. rewrite Hdir, He0.
      cbn [isnull negb]. now rewrite <- !app_assoc.
    + rewrite written_app. reflexivity.
Qed.

Lemma invoke_each_written dirname fn (g : string -> list (string * string)) names :
  (forall iface (s : state W), performs (fn dirname iface) s (g iface)) ->
  forall s, performs (invoke_each dirname fn names) s (flat_map g names).
Proof.
  intros Hfn. induction names as [|iface names IH]; intros s.
  - exists []. split; [unfold emits; simpl; now rewrite app_nil_r|reflexivity].
  - simpl. apply performs_seq; [apply Hfn|apply IH].
Qed.

Lemma invoke_each_within dirname fn (Q : string -> string * string -> Prop) names :
  (forall iface (s : state W), writes_within (Q iface) (fn dirname iface) s) ->
  forall s,
    writes_within (fun pv => exists iface, In iface names /\ Q iface pv)
      (invoke_each dirname fn names) s.
Proof.
  intros Hfn. induction names as [|iface names IH]; intros s.
  - exists []. split; [unfold emits; simpl; now rewrite app_nil_r|constructor].
  - destruct (Hfn iface s) as (n1 & He1 & Hq1).
    destruct (IH (snd (fn dirname iface s))) as (n2 & He2 & Hq2).
    exists (n1 ++ n2). split; [simpl; now apply emits_bind|].
    rewrite written_app. apply Forall_app. split.
    + eapply Forall_impl; [exact Hq1|]. intros pv Hpv. exists iface. simpl. auto.
    + eapply Forall_impl; [exact Hq2|]. intros pv (i & Hin & Hpv). exists i. simpl. auto.
Qed.

Lemma forEachInterface_within dirname fn (Q : string -> string * string -> Prop)
    (s : state W) :
  (forall iface (s : state W), writes_within (Q iface) (fn dirname iface) s) ->
  writes_within
    (fun pv => exists iface,
       (iface = "default" \/ isInterfaceName iface = true) /\ Q iface pv)
    (forEachInterface dirname fn) s.
Proof.
  intros Hfn.
  destruct (Hfn "default" s) as (n0 & He0 & Hq0).
  set (s1 := snd (fn dirname "default" s)).
  destruct (invoke_each_within dirname fn Q (listing dirname (world s1)) Hfn
              (snd (opendir dirname s1))) as (n1 & He1 & Hq1).
  destruct (forEachInterface_split dirname fn s n0 n1 He0 He1) as (new & He & Hw).
  exists new. split; [exact He|]. rewrite Hw. apply Forall_app. split.
  - eapply Forall_impl; [exact Hq0|]. intros pv Hpv. exists "default". auto.
  - eapply Forall_impl; [exact Hq1|]. intros pv (i & Hin & Hpv). exists i.
    split; [right|exact Hpv].
    unfold listing in Hin. destruct (result (plat_opendir dirname (world s1)));
      [|contradiction].
    apply real_interfaces_elem in Hin as (ent & _ & _ & Hn & <-). exact Hn.
Qed.

Lemma writeValue_fn_performs dirname basename value iface (s : state W) :
  performs (writeValueToPath dirname iface basename value >> pure tt) s
    [(path3 dirname iface basename, value)].
Proof.
  eexists. split.
  - unfold emits. rewrite bind_run, writeValueToPath_run. reflexivity.
  - reflexivity.
Qed.

Lemma setOnAllInterfaces_performs dirname basename value (s : state W) :
  let s1 := snd (writeValueToPath dirname "default" basename value s) in
  performs (setOnAllInterfaces dirname basename value) s
    (map (fun iface => (path3 dirname iface basename, value))
         ("default" :: listing dirname (world s1))).
Proof.
  intros s1. unfold setOnAllInterfaces. cbv zeta.
  match goal with |- context [forEachInterface dirname ?f] => set (fn := f) end.
  assert (forall iface (s : state W),
            performs (fn dirname iface) s [(path3 dirname iface basename, value)]) as Hfn.
  { intros iface s'. apply writeValue_fn_performs. }
  destruct (Hfn "default" s) as (n0 & He0 & Hw0).
  assert (snd (fn dirname "default" s) = s1) as Hs1.
  { unfold fn. now rewrite bind_run. }
  destruct (invoke_each_written dirname fn _ (listing dirname (world s1)) Hfn
              (snd (opendir dirname s1))) as (n1 & He1 & Hw1).
  rewrite <- Hs1 in He1.
  destruct (forEachInterface_split dirname fn s n0 n1 He0 He1) as (new & He & Hw).
  exists new. split; [exact He|]. rewrite Hw, Hw0, Hw1. cbn [map app].
  f_equal.
Qed.


Lemma reserved_not_visited iface :
  iface = "default" \/ isInterfaceName iface = true ->
  iface <> "." /\ iface <> ".." /\ iface <> "all".
Proof.
  intros [-> | H]; [repeat split; discriminate|].
  repeat split; intros ->; discriminate H.
Qed.

(** X9: setOnAllInterfaces writes only to nodes dirname/iface/basename where
    iface is "default" or an interface name; it never writes to the node of
    ".", ".." or the reserved entry "all", whatever the directory lists. *)
Theorem setOnAllInterfaces_spares_reserved (dirname basename value : string) (s : state W) :
  let paths :=
    map fst (written (drop (length (trace s))
                           (trace (snd (setOnAllInterfaces dirname basename value s))))) in
  Forall (fun path => exists iface,
            (iface = "default" \/ isInterfaceName iface = true) /\
            path = dirname +:+ "/" +:+ iface +:+ "/" +:+ basename) paths /\
  ~ In (dirname +:+ "/" +:+ "all" +:+ "/" +:+ basename) paths /\
  ~ In (dirname +:+ "/" +:+ "." +:+ "/" +:+ basename) paths /\
  ~ In (dirname +:+ "/" +:+ ".." +:+ "/" +:+ basename) paths.
Proof.
  intros paths.
  assert (Forall (fun path => exists iface,
                    (iface = "default" \/ isInterfaceName iface = true) /\
                    path = path3 dirname iface basename) paths) as Hall.
  { subst paths.
    destruct (setOnAllInterfaces_performs dirname basename value s) as (new & He & Hw).
    rewrite (emits_since _ _ _ He), Hw, map_map. cbn [fst].
    apply List.Forall_forall. intros path Hin. apply in_map_iff in Hin as (iface & <- & Hin).
    exists iface. split; [|reflexivity].
    destruct Hin as [<- | Hin]; [now left|right].
    unfold listing in Hin.
    destruct (result (plat_opendir dirname _)); [|contradiction].
    now apply real_interfaces_elem in Hin as (ent & _ & _ & Hn & <-). }
  split; [exact Hall|].
  assert (forall reserved, In reserved ["all"; "."; ".."] ->
            ~ In (path3 dirname reserved basename) paths) as Hres.
  { intros reserved Hr Hin. rewrite List.Forall_forall in Hall.
    destruct (Hall _ Hin) as (iface & Hv & Heq).
    apply path3_inj in Heq as [<- _]; [|reflexivity].
    apply reserved_not_visited in Hv as (H1 & H2 & H3).
    simpl in Hr. intuition congruence. }
  repeat split; apply Hres; simpl; auto.
Qed.

End Bulk.

(** ** Composite operations *)

Section Composite.
Context {W : Type} `{!Platform W} `{!Netd}.

Lemma writes_within_seq {A B} P (m : M W A) (k : M W B) (s : state W) :
  writes_within P m s -> writes_within P k (snd (m s)) ->
  writes_within P (m >> k) s.
Proof.
  intros (n1 & He1 & Hq1) (n2 & He2 & Hq2). exists (n1 ++ n2). split.
  - now apply emits_bind.
  - rewrite written_app. apply Forall_app. now split.
Qed.

Lemma setOnAllInterfaces_within dirs leaves dirname basename value (s : state W) :
  In dirname dirs -> In basename leaves ->
  writes_within (fun pv => per_interface_node dirs leaves (fst pv))
    (setOnAllInterfaces dirname basename value) s.
Proof.
  intros Hd Hl. unfold setOnAllInterfaces. cbv zeta.
  match goal with |- context [forEachInterface dirname ?f] => set (fn := f) end.
  destruct (forEachInterface_within dirname fn
              (fun iface pv => pv = (path3 dirname iface basename, value)) s)
    as (new & He & Hq).
  - intros iface s'. destruct (writeValue_fn_performs dirname basename value iface s')
      as (n & Hen & Hwn).
    exists n. split; [exact Hen|]. rewrite Hwn. now repeat constructor.
  - exists new. split; [exact He|]. eapply Forall_impl; [exact Hq|].
    intros pv (iface & Hv & ->). now exists dirname, iface, basename.
Qed.

Lemma setAcceptIPv6RIO_within dirs leaves min max (s : state W) :
  In ipv6_proc_path dirs ->
  In "accept_ra_rt_info_min_plen" leaves -> In "accept_ra_rt_info_max_plen" leaves ->
  writes_within (fun pv => per_interface_node dirs leaves (fst pv))
    (setAcceptIPv6RIO min max) s.
Proof.
  intros Hd Hmin Hmax. unfold setAcceptIPv6RIO.
  destruct (forEachInterface_within ipv6_proc_path (rio_fn min max)
              (fun iface pv => fst pv = min_plen_path iface \/
                               fst pv = max_plen_path iface) s)
    as (new & He & Hq).
  - intros iface s'. destruct (rio_fn_emits min max iface s') as (n & Hen & _ & Hwn).
    exists n. split; [exact Hen|]. rewrite Hwn.
    destruct (result _).
    + constructor; [cbn; now left|]. constructor; [cbn; now right|constructor].
    + constructor; [cbn; now left|constructor].
  - exists new. split; [exact He|]. eapply Forall_impl; [exact Hq|].
    intros pv (iface & Hv & [-> | ->]).
    + now exists ipv6_proc_path, iface, "accept_ra_rt_info_min_plen".
    + now exists ipv6_proc_path, iface, "accept_ra_rt_info_max_plen".
Qed.

(** X10: whatever the directories list and whichever writes fail, every file
    write of initializeAll goes to a node tree/iface/leaf where tree is one
    of the three configuration trees, leaf one of the eight tunables, and
    iface "default" or an interface name (so never ".", ".." or "all"). *)
Theorem initializeAll_stays_in_trees (s : state W) :
  Forall (fun pv => per_interface_node initializeAll_trees initializeAll_leaves (fst pv))
         (written (drop (length (trace s)) (trace (snd (initializeAll s))))).
Proof.
  assert (writes_within
            (fun pv => per_interface_node initializeAll_trees initializeAll_leaves (fst pv))
            initializeAll s) as (new & He & Hq).
  { unfold initializeAll, setAcceptRA, setAcceptRARouteTable, setIPv6OptimisticMode,
      setBaseReachableTimeMs, setIPv6UseOutgoingInterfaceAddrsOnly. cbv zeta.
    repeat
      (first [ apply setOnAllInterfaces_within; simpl; solve [auto 12]
             | apply setAcceptIPv6RIO_within; simpl; solve [auto 12]
             | apply writes_within_seq ]). }
  now rewrite (emits_since _ _ _ He).
Qed.


End Composite.

(** ** The further properties at work on the fake filesystem *)

Lemma accessor_path_components_witness :
  components
    (fst (@getParameterPathname (gmap string string) "ipv6" "neigh" "wlan0"
            "retrans_time_ms" Fake.boot)) =
    [""; "proc"; "sys"; "net"; "ipv6"; "neigh"; "wlan0"; "retrans_time_ms"] /\
  Forall (fun c => c <> "." /\ c <> "..") ["neigh"; "wlan0"; "retrans_time_ms"].
Proof.
  exact (@accessor_path_components (gmap string string) "ipv6" "neigh" "wlan0"
           "retrans_time_ms" Fake.boot eq_refl eq_refl eq_refl eq_refl).
Defined.

Lemma getParameter_reads_once_witness :
  @getParameter _ (Fake.platform Fake.two_interfaces false)
    "ipv6" "conf" "eth0" "accept_ra" "stale"
    (Fake.booted (<["/proc/sys/net/ipv6/conf/eth0/accept_ra" := "2"]>
                    (Fake.kernel ["default"; "eth0"]))) =
  ((0, "2"),
   State (<["/proc/sys/net/ipv6/conf/eth0/accept_ra" := "2"]>
            (Fake.kernel ["default"; "eth0"])) 0
         [EvReadFileToString "/proc/sys/net/ipv6/conf/eth0/accept_ra" true]).
Proof.
  exact (@getParameter_reads_once _ (Fake.platform Fake.two_interfaces false)
           "ipv6" "conf" "eth0" "accept_ra" "stale"
           (Fake.booted (<["/proc/sys/net/ipv6/conf/eth0/accept_ra" := "2"]>
                           (Fake.kernel ["default"; "eth0"])))
           eq_refl eq_refl eq_refl eq_refl).
Defined.

Lemma setParameter_writes_once_witness :
  @setParameter _ (Fake.platform Fake.two_interfaces false)
    "ipv6" "conf" "wlan0" "accept_ra" "2"
    (Fake.booted (Fake.kernel ["default"; "eth0"])) =
  (-2, State (Fake.kernel ["default"; "eth0"]) ENOENT
         [EvWriteStringToFile "2" "/proc/sys/net/ipv6/conf/wlan0/accept_ra" false]).
Proof.
  exact (@setParameter_writes_once _ (Fake.platform Fake.two_interfaces false)
           "ipv6" "conf" "wlan0" "accept_ra" "2"
           (Fake.booted (Fake.kernel ["default"; "eth0"]))
           eq_refl eq_refl eq_refl eq_refl).
Defined.

Lemma dad_and_mtu_targets_witness :
  let dad := @setAcceptIPv6Dad _ (Fake.platform Fake.two_interfaces false) Fake.netd
               "eth0" 1 (Fake.booted (Fake.kernel ["default"; "eth0"])) in
  let tx := @setIPv6DadTransmits _ (Fake.platform Fake.two_interfaces false) Fake.netd
              "eth0" "3" (Fake.booted (Fake.kernel ["default"; "eth0"])) in
  let mtu := @setMtu _ (Fake.platform Fake.two_interfaces false) Fake.netd
               "eth0" "1280" (Fake.booted (Fake.kernel ["default"; "eth0"])) in
  world (snd dad) !! "/proc/sys/net/ipv6/conf/eth0/accept_dad" = Some "1" /\
  world (snd tx) !! "/proc/sys/net/ipv6/conf/eth0/dad_transmits" = Some "3" /\
  world (snd mtu) !! "/sys/class/net/eth0/mtu" = Some "1280" /\
  fst mtu = 0 /\
  trace (snd mtu) = [EvWriteStringToFile "1280" "/sys/class/net/eth0/mtu" true].
Proof.
  cbv zeta.
  destruct (@dad_and_mtu_targets _ (Fake.platform Fake.two_interfaces false) Fake.netd
              "eth0" "3" "1280" 1 (Fake.booted (Fake.kernel ["default"; "eth0"])) eq_refl)
    as (-> & -> & ->).
  vm_compute. repeat split.
Defined.

(** The bulk writer on the host with two interfaces, of which wlan0 lacks
    the node: its failed write does not stop the pass. *)
Example setOnAllInterfaces_best_effort :
  trace (snd (@setOnAllInterfaces _ (Fake.platform Fake.two_interfaces false)
                "/proc/sys/net/ipv6/conf" "accept_ra" "2"
                (Fake.booted (Fake.kernel ["default"; "eth0"])))) =
  [EvWriteStringToFile "2" "/proc/sys/net/ipv6/conf/default/accept_ra" true;
   EvOpendir "/proc/sys/net/ipv6/conf" true;
   EvWriteStringToFile "2" "/proc/sys/net/ipv6/conf/wlan0/accept_ra" false;
   EvWriteStringToFile "2" "/proc/sys/net/ipv6/conf/eth0/accept_ra" true;
   EvClosedir "/proc/sys/net/ipv6/conf"].
Proof. reflexivity. Qed.
